(** * pondside.telemetry: one-time OpenTelemetry setup

    A shallow embedding of [src/pondside/telemetry.py].  The module owns one
    piece of state, the flag [_initialized]; everything else it touches
    belongs to the interpreter ([os.environ], the root logger) or to the
    OpenTelemetry packages (the global provider registries and the objects
    the constructors return).  That outside part is the record [World];
    objects live in a heap addressed by allocation order, so that two
    fields holding the same Python object hold the same location. *)

From Stdlib Require Import ZArith String.
From stdpp Require Import base gmap strings list.

Local Open Scope string_scope.

(** ** Objects of the telemetry library *)

Definition loc := nat.

Inductive Obj :=
| Obj_Resource (attributes : gmap string string)
| Obj_OTLPSpanExporter (endpoint : string)
| Obj_SpanLimits (max_attributes max_attribute_length max_events
                  max_links max_event_attributes max_link_attributes : Z)
| Obj_TracerProvider (resource span_limits : loc) (span_processors : list loc)
| Obj_BatchSpanProcessor (exporter : loc)
| Obj_OTLPLogExporter (endpoint : string)
| Obj_LoggerProvider (resource : loc) (log_record_processors : list loc)
| Obj_BatchLogRecordProcessor (exporter : loc)
| Obj_LoggingHandler (level : Z) (logger_provider : loc).

(** The calls that leave the module, with their arguments. *)
Inductive ExtCall :=
| Call_Resource_create (attributes : list (string * string))
| Call_OTLPSpanExporter (endpoint : string)
| Call_SpanLimits (max_attributes max_attribute_length max_events
                   max_links max_event_attributes max_link_attributes : Z)
| Call_TracerProvider (resource span_limits : loc)
| Call_BatchSpanProcessor (exporter : loc)
| Call_add_span_processor (provider processor : loc)
| Call_set_tracer_provider (provider : loc)
| Call_OTLPLogExporter (endpoint : string)
| Call_LoggerProvider (resource : loc)
| Call_BatchLogRecordProcessor (exporter : loc)
| Call_add_log_record_processor (provider processor : loc)
| Call_set_logger_provider (provider : loc)
| Call_LoggingHandler (level : Z) (logger_provider : loc)
| Call_addHandler (handler : loc)
| Call_get_tracer (name : string).

(** ** The world outside the module

    [tracer_providers] and [logger_providers] are the providers handed to
    [set_tracer_provider] and [set_logger_provider], oldest first (what
    the registries hold is [registered_tracer_provider] and
    [registered_logger_provider] below); [root_handlers] are the
    handlers of [logging.getLogger()]; [calls] is the trace of library
    calls made so far, oldest first. *)
Record World := mkWorld {
  environ : gmap string string;
  heap : list Obj;
  tracer_providers : list loc;
  logger_providers : list loc;
  root_handlers : list loc;
  calls : list ExtCall
}.

(** The module state: the global of line 30 next to the world. *)
Record State := mkState {
  _initialized : bool;
  world : World
}.

(** State of a freshly imported module: [_initialized = False]. *)
Definition module_loaded (w : World) : State :=
  {| _initialized := false; world := w |}.

(** ** Computations that may raise *)

Inductive outcome (A : Type) :=
| Returned (a : A)
| Raised (c : ExtCall).
Arguments Returned {A} a.
Arguments Raised {A} c.

Definition M (A : Type) : Type := State -> outcome A * State.

Definition ret {A} (a : A) : M A := fun st => (Returned a, st).

Definition bind {A B} (m : M A) (k : A -> M B) : M B :=
  fun st =>
    match m st with
    | (Returned a, st') => k a st'
    | (Raised c, st') => (Raised c, st')
    end.

Notation "x <- m ;; k" := (bind m (fun x => k))
  (at level 100, m at next level, right associativity).
Notation "m ;;; k" := (bind m (fun _ => k))
  (at level 100, right associativity).

Definition get_initialized : M bool :=
  fun st => (Returned (_initialized st), st).

Definition set_initialized (b : bool) : M unit :=
  fun st => (Returned tt, {| _initialized := b; world := world st |}).

(** [os.environ.get(key)] *)
Definition os_environ_get (key : string) : M (option string) :=
  fun st => (Returned (environ (world st) !! key), st).

(** Python truth value of an [Optional[str]]: [None] and [""] are false. *)
Definition truthy (o : option string) : bool :=
  match o with
  | None => false
  | Some EmptyString => false
  | Some (String _ _) => true
  end.

(** [f"{o}"]: a string is inserted as it is, [None] prints as "None". *)
Definition fstr (o : option string) : string :=
  match o with
  | None => "None"
  | Some s => s
  end.

(** ** Effects of the library calls on the world *)

Definition log_call (c : ExtCall) (w : World) : World :=
  mkWorld (environ w) (heap w) (tracer_providers w) (logger_providers w)
          (root_handlers w) (calls w ++ [c]).

Definition with_heap (h : list Obj) (w : World) : World :=
  mkWorld (environ w) h (tracer_providers w) (logger_providers w)
          (root_handlers w) (calls w).

(** A constructor call: the new object gets the next location. *)
Definition alloc (o : Obj) (w : World) : option (loc * World) :=
  Some (length (heap w), with_heap (heap w ++ [o]) w).

(** [provider.add_span_processor(p)]; any other receiver has no such
    method and the call raises. *)
Definition eff_add_span_processor (provider p : loc) (w : World)
  : option (unit * World) :=
  match heap w !! provider with
  | Some (Obj_TracerProvider r sl ps) =>
      Some (tt, with_heap (<[provider := Obj_TracerProvider r sl (ps ++ [p])]> (heap w)) w)
  | _ => None
  end.

Definition eff_add_log_record_processor (provider p : loc) (w : World)
  : option (unit * World) :=
  match heap w !! provider with
  | Some (Obj_LoggerProvider r ps) =>
      Some (tt, with_heap (<[provider := Obj_LoggerProvider r (ps ++ [p])]> (heap w)) w)
  | _ => None
  end.

(** [set_tracer_provider] and [set_logger_provider] are recorded with the
    provider handed in.  The registries of the library are set once: the
    first provider handed in stays registered, a later one is refused with
    a warning and the call returns all the same. *)
Definition eff_set_tracer_provider (provider : loc) (w : World)
  : option (unit * World) :=
  Some (tt, mkWorld (environ w) (heap w) (tracer_providers w ++ [provider])
                    (logger_providers w) (root_handlers w) (calls w)).

Definition eff_set_logger_provider (provider : loc) (w : World)
  : option (unit * World) :=
  Some (tt, mkWorld (environ w) (heap w) (tracer_providers w)
                    (logger_providers w ++ [provider]) (root_handlers w) (calls w)).

Definition eff_addHandler (handler : loc) (w : World)
  : option (unit * World) :=
  Some (tt, mkWorld (environ w) (heap w) (tracer_providers w)
                    (logger_providers w) (root_handlers w ++ [handler]) (calls w)).

(** What the registries hold: the first provider handed in, if any. *)
Definition registered_tracer_provider (w : World) : option loc :=
  head (tracer_providers w).

Definition registered_logger_provider (w : World) : option loc :=
  head (logger_providers w).

Definition with_environ (env : gmap string string) (w : World) : World :=
  mkWorld env (heap w) (tracer_providers w) (logger_providers w)
          (root_handlers w) (calls w).

(** ** Sequences of operations on the module

    [Op_outside] is anything the rest of the process does to the world
    between two calls (set a variable, add a handler); it cannot name the
    module's flag. *)
Inductive Op :=
| Op_init (service_name : string)
| Op_get_tracer (name : option string)
| Op_outside (f : World -> World).

(** The calls made between two states. *)
Definition new_calls (st st' : State) : list ExtCall :=
  drop (length (calls (world st))) (calls (world st')).

Definition is_Resource_create (c : ExtCall) : bool :=
  match c with Call_Resource_create _ => true | _ => false end.

Definition is_exporter_call (c : ExtCall) : bool :=
  match c with
  | Call_OTLPSpanExporter _ | Call_OTLPLogExporter _ => true
  | _ => false
  end.


(** The same state with the endpoint variable removed from the
    environment. *)
Definition without_endpoint (st : State) : State :=
  mkState (_initialized st)
          (with_environ (delete "OTEL_EXPORTER_OTLP_ENDPOINT" (environ (world st)))
                        (world st)).

(** What the module imports and does not define: the two constants
    [opentelemetry.sdk.resources.SERVICE_NAME] and [logging.DEBUG], the
    attributes the library's resource detectors find (its own
    telemetry.sdk.* entries and what they read from the environment), the
    service name it falls back to, the tracers of the library and its
    registry lookup, and whether a library call raises in a given world. *)
Class Library := {
  SERVICE_NAME : string;
  DEBUG : Z;
  detected_attributes : gmap string string -> gmap string string;
  unknown_service_name : string;
  Tracer : Type;
  lookup_tracer : World -> string -> Tracer;
  raises : World -> ExtCall -> bool
}.

Section Telemetry.

Context {lib : Library}.

(** A call into the library: it is recorded, then it either raises (and
    nothing else happens) or has its effect. *)
Definition ext {A} (c : ExtCall) (eff : World -> option (A * World)) : M A :=
  fun st =>
    let w := log_call c (world st) in
    if raises (world st) c
    then (Raised c, {| _initialized := _initialized st; world := w |})
    else match eff w with
         | Some (a, w') => (Returned a, {| _initialized := _initialized st; world := w' |})
         | None => (Raised c, {| _initialized := _initialized st; world := w |})
         end.

(** The attributes of the resource that [Resource.create(attributes)]
    returns: the detected attributes updated with the given ones, and, when
    that leaves the service name missing or empty, the library's fallback
    name in its place. *)
Definition resource_attributes (env : gmap string string)
    (attributes : list (string * string)) : gmap string string :=
  let merged := list_to_map attributes ∪ detected_attributes env in
  if truthy (merged !! SERVICE_NAME)
  then merged
  else <[SERVICE_NAME := unknown_service_name]> merged.

Definition Resource_create (attributes : list (string * string)) : M loc :=
  ext (Call_Resource_create attributes)
      (fun w => alloc (Obj_Resource (resource_attributes (environ w) attributes)) w).

Definition OTLPSpanExporter (endpoint : string) : M loc :=
  ext (Call_OTLPSpanExporter endpoint) (alloc (Obj_OTLPSpanExporter endpoint)).

Definition SpanLimits (max_attributes max_attribute_length max_events
                       max_links max_event_attributes max_link_attributes : Z) : M loc :=
  ext (Call_SpanLimits max_attributes max_attribute_length max_events
                       max_links max_event_attributes max_link_attributes)
      (alloc (Obj_SpanLimits max_attributes max_attribute_length max_events
                             max_links max_event_attributes max_link_attributes)).

Definition TracerProvider (resource span_limits : loc) : M loc :=
  ext (Call_TracerProvider resource span_limits)
      (alloc (Obj_TracerProvider resource span_limits [])).

Definition BatchSpanProcessor (exporter : loc) : M loc :=
  ext (Call_BatchSpanProcessor exporter) (alloc (Obj_BatchSpanProcessor exporter)).

Definition add_span_processor (provider p : loc) : M unit :=
  ext (Call_add_span_processor provider p) (eff_add_span_processor provider p).

Definition set_tracer_provider (provider : loc) : M unit :=
  ext (Call_set_tracer_provider provider) (eff_set_tracer_provider provider).

Definition OTLPLogExporter (endpoint : string) : M loc :=
  ext (Call_OTLPLogExporter endpoint) (alloc (Obj_OTLPLogExporter endpoint)).

Definition LoggerProvider (resource : loc) : M loc :=
  ext (Call_LoggerProvider resource) (alloc (Obj_LoggerProvider resource [])).

Definition BatchLogRecordProcessor (exporter : loc) : M loc :=
  ext (Call_BatchLogRecordProcessor exporter)
      (alloc (Obj_BatchLogRecordProcessor exporter)).

Definition add_log_record_processor (provider p : loc) : M unit :=
  ext (Call_add_log_record_processor provider p)
      (eff_add_log_record_processor provider p).

Definition set_logger_provider (provider : loc) : M unit :=
  ext (Call_set_logger_provider provider) (eff_set_logger_provider provider).

Definition LoggingHandler (level : Z) (logger_provider : loc) : M loc :=
  ext (Call_LoggingHandler level logger_provider)
      (alloc (Obj_LoggingHandler level logger_provider)).

(** [logging.getLogger().addHandler(handler)] *)
Definition root_addHandler (handler : loc) : M unit :=
  ext (Call_addHandler handler) (eff_addHandler handler).

(** [trace.get_tracer(name)] of the library. *)
Definition trace_get_tracer (name : string) : M Tracer :=
  ext (Call_get_tracer name) (fun w => Some (lookup_tracer w name, w)).

(** ** [init], lines 33-86 *)
Definition init (service_name : string) : M unit :=
  initialized <- get_initialized ;;
  if initialized then ret tt else
  endpoint <- os_environ_get "OTEL_EXPORTER_OTLP_ENDPOINT" ;;
  if negb (truthy endpoint) then set_initialized true else
  resource <- Resource_create [(SERVICE_NAME, service_name)] ;;
  trace_exporter <- OTLPSpanExporter (fstr endpoint ++ "/v1/traces") ;;
  span_limits <- SpanLimits 100000 100000 10000 1000 10000 1000 ;;
  tracer_provider <- TracerProvider resource span_limits ;;
  span_processor <- BatchSpanProcessor trace_exporter ;;
  add_span_processor tracer_provider span_processor ;;;
  set_tracer_provider tracer_provider ;;;
  log_exporter <- OTLPLogExporter (fstr endpoint ++ "/v1/logs") ;;
  logger_provider <- LoggerProvider resource ;;
  log_processor <- BatchLogRecordProcessor log_exporter ;;
  add_log_record_processor logger_provider log_processor ;;;
  set_logger_provider logger_provider ;;;
  handler <- LoggingHandler DEBUG logger_provider ;;
  root_addHandler handler ;;;
  set_initialized true.

(** ** [get_tracer], lines 89-98; [None] is the omitted argument. *)
Definition get_tracer (name : option string) : M Tracer :=
  trace_get_tracer (default "pondside" name).

(** State after one operation, whether it returned or raised. *)
Definition exec (op : Op) (st : State) : State :=
  match op with
  | Op_init service_name => snd (init service_name st)
  | Op_get_tracer name => snd (get_tracer name st)
  | Op_outside f => {| _initialized := _initialized st; world := f (world st) |}
  end.

Fixpoint run (ops : list Op) (st : State) : State :=
  match ops with
  | [] => st
  | op :: ops' => run ops' (exec op st)
  end.

Definition library_never_raises : Prop :=
  forall w c, raises w c = false.


(** ** What one configuring run of [init] adds to the world

    [n] is the size of the heap before the run: the nine new objects are
    at [n] .. [n+8], in the order the constructors are called. *)
Definition configured_objects (env : gmap string string)
    (service_name endpoint : string) (n : nat) : list Obj :=
  [ Obj_Resource (resource_attributes env [(SERVICE_NAME, service_name)]);
    Obj_OTLPSpanExporter (endpoint ++ "/v1/traces");
    Obj_SpanLimits 100000 100000 10000 1000 10000 1000;
    Obj_TracerProvider n (n + 2) [n + 4];
    Obj_BatchSpanProcessor (n + 1);
    Obj_OTLPLogExporter (endpoint ++ "/v1/logs");
    Obj_LoggerProvider n [n + 7];
    Obj_BatchLogRecordProcessor (n + 5);
    Obj_LoggingHandler DEBUG (n + 6) ].

Definition configured_calls (service_name endpoint : string) (n : nat)
  : list ExtCall :=
  [ Call_Resource_create [(SERVICE_NAME, service_name)];
    Call_OTLPSpanExporter (endpoint ++ "/v1/traces");
    Call_SpanLimits 100000 100000 10000 1000 10000 1000;
    Call_TracerProvider n (n + 2);
    Call_BatchSpanProcessor (n + 1);
    Call_add_span_processor (n + 3) (n + 4);
    Call_set_tracer_provider (n + 3);
    Call_OTLPLogExporter (endpoint ++ "/v1/logs");
    Call_LoggerProvider n;
    Call_BatchLogRecordProcessor (n + 5);
    Call_add_log_record_processor (n + 6) (n + 7);
    Call_set_logger_provider (n + 6);
    Call_LoggingHandler DEBUG (n + 6);
    Call_addHandler (n + 8) ].

Definition configured_world (service_name endpoint : string) (w : World)
  : World :=
  let n := length (heap w) in
  mkWorld (environ w)
          (heap w ++ configured_objects (environ w) service_name endpoint n)
          (tracer_providers w ++ [n + 3])
          (logger_providers w ++ [n + 6])
          (root_handlers w ++ [n + 8])
          (calls w ++ configured_calls service_name endpoint n).

End Telemetry.

(** ** Concrete worlds and libraries used to exercise the definitions *)

Definition empty_world : World :=
  mkWorld ∅ [] [] [] [] [].

Definition world_with_endpoint (e : string) : World :=
  mkWorld {[ "OTEL_EXPORTER_OTLP_ENDPOINT" := e ]} [] [] [] [] [].

Definition never_raises (w : World) (c : ExtCall) : bool := false.

(** The root logger refuses a handler while fewer than 14 calls have been
    made, that is, the first time [init] gets there. *)
Definition first_addHandler_raises (w : World) (c : ExtCall) : bool :=
  match c with
  | Call_addHandler _ => Nat.ltb (length (calls w)) 14
  | _ => false
  end.

Definition name_as_tracer (w : World) (name : string) : string := name.

(** Detectors that find the SDK's own entries and nothing in the
    environment. *)
Definition sdk_attributes (env : gmap string string) : gmap string string :=
  {[ "telemetry.sdk.language" := "python";
     "telemetry.sdk.name" := "opentelemetry" ]}.

(** A library that never raises, with the constants at the values the
    Python packages give them. *)
Definition quiet_library : Library :=
  {| SERVICE_NAME := "service.name";
     DEBUG := 10;
     detected_attributes := sdk_attributes;
     unknown_service_name := "unknown_service:python3";
     Tracer := string;
     lookup_tracer := name_as_tracer;
     raises := never_raises |}.

(** The same with a root logger that refuses the first handler. *)
Definition flaky_library : Library :=
  {| SERVICE_NAME := "service.name";
     DEBUG := 10;
     detected_attributes := sdk_attributes;
     unknown_service_name := "unknown_service:python3";
     Tracer := string;
     lookup_tracer := name_as_tracer;
     raises := first_addHandler_raises |}.

(** A process whose environment holds only the endpoint variable. *)
Definition demo_state : State :=
  module_loaded (world_with_endpoint "http://collector:4318").

Definition demo_init : string -> M unit := init (lib := quiet_library).

Definition demo_run : list Op -> State -> State := run (lib := quiet_library).

Definition demo_configured : State := snd (demo_init "api" demo_state).

Definition flaky_init : string -> M unit := init (lib := flaky_library).

Definition demo_raised : State := snd (flaky_init "api" demo_state).



(** [init] with the empty string for a service name. *)
Definition demo_unnamed : State := snd (demo_init "" demo_state).

Definition demo_ops : list Op :=
  [ Op_get_tracer None; Op_outside (with_environ ∅); Op_init "worker";
    Op_get_tracer (Some "db") ].

(** ** How far a raising [init] got

    Each of the fourteen library calls of [init] has its own constructor,
    so the call that raised tells the line.  [set_tracer_provider] is line
    72: a raise from line 75 on finds the tracer provider handed to the
    library; [set_logger_provider] is line 79. *)
Definition after_tracer_registration (c : ExtCall) : bool :=
  match c with
  | Call_OTLPLogExporter _ | Call_LoggerProvider _
  | Call_BatchLogRecordProcessor _ | Call_add_log_record_processor _ _
  | Call_set_logger_provider _ | Call_LoggingHandler _ _
  | Call_addHandler _ => true
  | _ => false
  end.

Definition after_logger_registration (c : ExtCall) : bool :=
  match c with
  | Call_LoggingHandler _ _ | Call_addHandler _ => true
  | _ => false
  end.

(** Operations that are calls of the module's two functions. *)
Definition is_module_call (op : Op) : bool :=
  match op with
  | Op_init _ | Op_get_tracer _ => true
  | Op_outside _ => false
  end.

(** [w'] has everything [w] had, in place: the old objects at their
    locations, the old registrations and handlers in their order, the old
    calls at the head of the trace. *)
Definition world_extends (w w' : World) : Prop :=
  heap w `prefix_of` heap w' /\
  tracer_providers w `prefix_of` tracer_providers w' /\
  logger_providers w `prefix_of` logger_providers w' /\
  root_handlers w `prefix_of` root_handlers w' /\
  calls w `prefix_of` calls w'.

(** A start-up that calls [init] again after a failure, with a
    [get_tracer] in between. *)
Definition retry_ops : list Op :=
  [ Op_init "api"; Op_get_tracer None; Op_init "api"; Op_init "worker" ].

Definition flaky_run : list Op -> State -> State := run (lib := flaky_library).

(** * Properties *)

Section Properties.

Context {lib : Library}.

(** ** Inversion of the monad and of library calls *)

Lemma lookup_app_plus {A} (l1 l2 : list A) (i : nat) :
  (l1 ++ l2)%list !! (length l1 + i) = l2 !! i.
Proof.
  rewrite lookup_app_r by lia. f_equal. lia.
Qed.

Lemma truthy_Some_nonempty (e : string) :
  truthy (Some e) = true <-> e <> "".
Proof.
  destruct e; simpl; split; intros H; congruence.
Qed.

Lemma bind_Returned_inv {A B} (m : M A) (k : A -> M B) st b st2 :
  bind m k st = (Returned b, st2) ->
  exists a st1, m st = (Returned a, st1) /\ k a st1 = (Returned b, st2).
Proof.
  unfold bind. destruct (m st) as [[a|c] st1]; intros H.
  - exists a, st1. split; [reflexivity | exact H].
  - discriminate H.
Qed.

Lemma bind_Raised_inv {A B} (m : M A) (k : A -> M B) st c st2 :
  bind m k st = (Raised c, st2) ->
  m st = (Raised c, st2) \/
  exists a st1, m st = (Returned a, st1) /\ k a st1 = (Raised c, st2).
Proof.
  unfold bind. destruct (m st) as [[a|c'] st1]; intros H.
  - right. exists a, st1. split; [reflexivity | exact H].
  - left. injection H as <- <-. reflexivity.
Qed.

Lemma ext_Returned_inv {A} c (eff : World -> option (A * World)) st a st' :
  ext c eff st = (Returned a, st') ->
  raises (world st) c = false /\
  exists w', eff (log_call c (world st)) = Some (a, w') /\
             st' = mkState (_initialized st) w'.
Proof.
  unfold ext. destruct (raises (world st) c); [discriminate|].
  destruct (eff _) as [[a' w']|]; [|discriminate].
  intros H. injection H as -> <-. split; [reflexivity|].
  exists w'. split; reflexivity.
Qed.

Lemma ext_Raised_inv {A} c (eff : World -> option (A * World)) st c' st' :
  ext c eff st = (Raised c', st') ->
  c' = c /\ st' = mkState (_initialized st) (log_call c (world st)) /\
  (raises (world st) c = true \/ eff (log_call c (world st)) = None).
Proof.
  unfold ext. destruct (raises (world st) c).
  - intros H. injection H as <- <-. repeat split. left. reflexivity.
  - destruct (eff _) as [[a' w']|] eqn:E; [discriminate|].
    intros H. injection H as <- <-. repeat split. right. reflexivity.
Qed.

(** Proof steps along the body of [init]: name the library call at the
    head of a hypothesis, bring the world to a record of lists with the
    new objects appended to the old heap, and step over one call that
    returned or over one call that may have raised. *)
Ltac unfold_call H :=
  unfold Resource_create, OTLPSpanExporter, SpanLimits, TracerProvider,
    BatchSpanProcessor, add_span_processor, set_tracer_provider,
    OTLPLogExporter, LoggerProvider, BatchLogRecordProcessor,
    add_log_record_processor, set_logger_provider, LoggingHandler,
    root_addHandler in H.

Ltac world_simpl H :=
  unfold alloc, eff_add_span_processor, eff_add_log_record_processor,
    eff_set_tracer_provider, eff_set_logger_provider, eff_addHandler,
    log_call, with_heap in H;
  cbn [_initialized world environ heap tracer_providers logger_providers
       root_handlers calls] in H;
  rewrite <- ?app_assoc in H; cbn [app] in H;
  rewrite ?length_app in H; cbn [length] in H;
  rewrite <- ?Nat.add_assoc in H; cbn [Nat.add] in H.

Ltac effect_simpl E :=
  world_simpl E; rewrite ?lookup_app_plus, ?insert_app_r in E; simpl in E.

Ltac step_returned H :=
  let a := fresh "a" in let st1 := fresh "st" in
  let H1 := fresh "H" in let R := fresh "R" in
  let w := fresh "w" in let E := fresh "E" in
  apply bind_Returned_inv in H; destruct H as (a & st1 & H1 & H);
  unfold_call H1; apply ext_Returned_inv in H1;
  destruct H1 as (R & w & E & ->); clear R;
  effect_simpl E; injection E as <- <-; world_simpl H.

Ltac step_raised H R :=
  let a := fresh "a" in let st1 := fresh "st" in
  let H1 := fresh "H" in let R' := fresh "R" in
  let w := fresh "w" in let E := fresh "E" in
  apply bind_Raised_inv in H;
  destruct H as [H | (a & st1 & H1 & H)];
  [ unfold_call H; apply ext_Raised_inv in H;
    destruct H as (-> & -> & [R | E]);
    [ | effect_simpl E; discriminate E ]
  | unfold_call H1; apply ext_Returned_inv in H1;
    destruct H1 as (R' & w & E & ->); clear R';
    effect_simpl E; injection E as <- <-; world_simpl H ].

(** ** The three ways through [init] *)

Lemma init_already_initialized s st :
  _initialized st = true -> init s st = (Returned tt, st).
Proof.
  intros Hi. unfold init, bind, get_initialized.
  rewrite Hi. reflexivity.
Qed.

Lemma init_disabled s st :
  _initialized st = false ->
  truthy (environ (world st) !! "OTEL_EXPORTER_OTLP_ENDPOINT") = false ->
  init s st = (Returned tt, mkState true (world st)).
Proof.
  intros Hi Ht. unfold init, bind, get_initialized, os_environ_get.
  rewrite Hi. cbn [_initialized world]. rewrite Ht. reflexivity.
Qed.

Lemma init_configured_returned s st st' e :
  _initialized st = false ->
  environ (world st) !! "OTEL_EXPORTER_OTLP_ENDPOINT" = Some e ->
  e <> "" ->
  init s st = (Returned tt, st') ->
  st' = mkState true (configured_world s e (world st)).
Proof.
  intros Hi He Ht Hr. apply truthy_Some_nonempty in Ht.
  destruct st as [i [env h tps lps rhs cs]]. simpl in Hi, He. subst i.
  unfold init, bind at 1 2, get_initialized, os_environ_get in Hr.
  cbn [_initialized world environ] in Hr.
  rewrite He, Ht in Hr. cbn [negb fstr] in Hr.
  do 14 step_returned Hr.
  unfold set_initialized in Hr. injection Hr as <-.
  reflexivity.
Qed.

(** [init] raises only on the configuring path and only because a
    library call raised; the flag is then still false, and neither the
    environment nor the root logger has changed. *)
Lemma init_raised s st c st' :
  init s st = (Raised c, st') ->
  _initialized st = false /\
  truthy (environ (world st) !! "OTEL_EXPORTER_OTLP_ENDPOINT") = true /\
  _initialized st' = false /\
  environ (world st') = environ (world st) /\
  root_handlers (world st') = root_handlers (world st) /\
  exists w, raises w c = true.
Proof.
  intros Hr.
  destruct (_initialized st) eqn:Hi.
  { rewrite init_already_initialized in Hr by exact Hi. discriminate Hr. }
  destruct (truthy (environ (world st) !! "OTEL_EXPORTER_OTLP_ENDPOINT")) eqn:Ht.
  2:{ rewrite init_disabled in Hr by assumption. discriminate Hr. }
  split; [reflexivity|]. split; [reflexivity|].
  destruct st as [i [env h tps lps rhs cs]]. simpl in Hi, Ht. subst i.
  unfold init, bind at 1 2, get_initialized, os_environ_get in Hr.
  cbn [_initialized world environ] in Hr.
  rewrite Ht in Hr. cbn [negb] in Hr.
  do 14 (step_raised Hr R;
         [ cbn [_initialized world environ root_handlers log_call];
           repeat split; eexists; exact R | ]).
  discriminate Hr.
Qed.

Lemma init_configured_total s st e :
  library_never_raises ->
  _initialized st = false ->
  environ (world st) !! "OTEL_EXPORTER_OTLP_ENDPOINT" = Some e ->
  e <> "" ->
  init s st = (Returned tt, mkState true (configured_world s e (world st))).
Proof.
  intros Hn Hi He Ht.
  destruct (init s st) as [[[]|c] st'] eqn:Hr.
  - f_equal. eapply init_configured_returned; eassumption.
  - apply init_raised in Hr. destruct Hr as (_ & _ & _ & _ & _ & w & Hw).
    rewrite Hn in Hw. discriminate Hw.
Qed.

Lemma init_returned_initialized s st st' :
  init s st = (Returned tt, st') -> _initialized st' = true.
Proof.
  intros Hr. destruct (_initialized st) eqn:Hi.
  - rewrite init_already_initialized in Hr by exact Hi.
    injection Hr as <-. exact Hi.
  - destruct (environ (world st) !! "OTEL_EXPORTER_OTLP_ENDPOINT")
      as [e|] eqn:He.
    + destruct (truthy (Some e)) eqn:Ht.
      * apply truthy_Some_nonempty in Ht.
        rewrite (init_configured_returned s st st' e Hi He Ht Hr).
        reflexivity.
      * rewrite init_disabled in Hr; [|exact Hi|rewrite He; exact Ht].
        injection Hr as <-. reflexivity.
    + rewrite init_disabled in Hr; [|exact Hi|rewrite He; reflexivity].
      injection Hr as <-. reflexivity.
Qed.

(** ** The flag along a run *)

Lemma get_tracer_initialized name st :
  _initialized (snd (get_tracer name st)) = _initialized st.
Proof.
  unfold get_tracer, trace_get_tracer, ext.
  destruct (raises _ _); reflexivity.
Qed.

Lemma exec_keeps_initialized op st :
  _initialized st = true -> _initialized (exec op st) = true.
Proof.
  intros Hi. destruct op as [s|name|f]; simpl.
  - rewrite init_already_initialized by exact Hi. exact Hi.
  - rewrite get_tracer_initialized. exact Hi.
  - exact Hi.
Qed.

Lemma run_keeps_initialized ops :
  forall st, _initialized st = true -> _initialized (run ops st) = true.
Proof.
  induction ops as [|op ops IH]; intros st Hi; simpl.
  - exact Hi.
  - apply IH. apply exec_keeps_initialized. exact Hi.
Qed.

(** ** Looking into a configured world *)

Lemma lookup_new_object (h objs : list Obj) (k : nat) (o : Obj) :
  objs !! k = Some o -> (h ++ objs)%list !! (length h + k) = Some o.
Proof.
  intros H. rewrite lookup_app_plus. exact H.
Qed.

Lemma lookup_first_new_object (h objs : list Obj) (o : Obj) :
  (h ++ o :: objs)%list !! length h = Some o.
Proof.
  apply list_lookup_middle. reflexivity.
Qed.

Lemma new_calls_configured s e b b' w :
  new_calls (mkState b w) (mkState b' (configured_world s e w))
  = configured_calls s e (length (heap w)).
Proof.
  unfold new_calls, configured_world. cbn [world calls].
  apply drop_app_length.
Qed.

Ltac heap_lookup :=
  cbn [configured_world world heap configured_objects];
  first [ apply lookup_first_new_object
        | apply lookup_new_object; reflexivity ].

Lemma resource_attributes_service_name (env : gmap string string) (s : string) :
  resource_attributes env [(SERVICE_NAME, s)] !! SERVICE_NAME
  = Some (if truthy (Some s) then s else unknown_service_name).
Proof.
  unfold resource_attributes.
  assert (Hm : (list_to_map [(SERVICE_NAME, s)] ∪ detected_attributes env
                : gmap string string) !! SERVICE_NAME = Some s).
  { apply lookup_union_Some_l. cbn [list_to_map foldr uncurry].
    apply lookup_insert_eq. }
  rewrite Hm. destruct (truthy (Some s)).
  - exact Hm.
  - apply lookup_insert_eq.
Qed.

(** A registry that is set once, after one more provider is handed in. *)
Lemma head_snoc_default (l : list loc) (x : loc) :
  head (l ++ [x]) = Some (default x (head l)).
Proof.
  destruct l; reflexivity.
Qed.

Lemma head_app_if (l : list loc) (b : bool) (x : loc) :
  head (l ++ (if b then [x] else []))
  = match head l with
    | Some p => Some p
    | None => if b then Some x else None
    end.
Proof.
  destruct l, b; reflexivity.
Qed.

Lemma init_endpoint_absent_state s st :
  environ (world st) !! "OTEL_EXPORTER_OTLP_ENDPOINT" = None ->
  init s st = (Returned tt, mkState true (world st)).
Proof.
  intros He. destruct (_initialized st) eqn:Hi.
  - rewrite init_already_initialized by exact Hi.
    destruct st as [i w]. simpl in Hi. subst i. reflexivity.
  - apply init_disabled; [exact Hi|]. rewrite He. reflexivity.
Qed.

(** * The claims *)

(** C1: once [init] has returned, every later call of [init] -- with any
    service name, after any other operations and any change to the
    environment in between -- returns at once and leaves the whole state
    as it found it: no provider is registered, no object is constructed,
    no handler is attached, no library call is made. *)
Theorem init_idempotent (s : string) (st st' : State) :
  init s st = (Returned tt, st') ->
  forall (ops : list Op) (s' : string),
    init s' (run ops st') = (Returned tt, run ops st').
Proof.
  intros Hr ops s'. apply init_already_initialized.
  apply run_keeps_initialized.
  exact (init_returned_initialized s st st' Hr).
Qed.

(** C2: when OTEL_EXPORTER_OTLP_ENDPOINT is absent from the environment,
    [init] returns normally with the flag set and the world untouched
    (heap, registries, root handlers), having made no library call. *)
Theorem init_endpoint_absent (s : string) (st : State) :
  environ (world st) !! "OTEL_EXPORTER_OTLP_ENDPOINT" = None ->
  init s st = (Returned tt, mkState true (world st)) /\
  new_calls st (snd (init s st)) = [].
Proof.
  intros He.
  pose proof (init_endpoint_absent_state s st He) as H.
  split; [exact H|]. rewrite H. unfold new_calls. cbn [snd world].
  apply drop_all.
Qed.

(** C3: in any state reached from the freshly loaded module by operations
    [ops1], if the flag is set then it is still set after any further
    operations [ops2]: calls of [init] and [get_tracer], returning or
    raising, and changes of the world by the rest of the process. *)
Theorem initialized_never_reset (w0 : World) (ops1 ops2 : list Op) :
  _initialized (run ops1 (module_loaded w0)) = true ->
  _initialized (run ops2 (run ops1 (module_loaded w0))) = true.
Proof.
  apply run_keeps_initialized.
Qed.

(** C4: on the first [init] with a non-empty endpoint [e], the only
    exporter constructions are a span exporter for [e ++ "/v1/traces"]
    and a log exporter for [e ++ "/v1/logs"], and these are the exporters
    behind the tracer provider and the logger provider that [init] hands
    to the library. *)
Theorem exporter_endpoints (s : string) (st st' : State) (e : string) :
  _initialized st = false ->
  environ (world st) !! "OTEL_EXPORTER_OTLP_ENDPOINT" = Some e ->
  e <> "" ->
  init s st = (Returned tt, st') ->
  List.filter is_exporter_call (new_calls st st')
  = [ Call_OTLPSpanExporter (e ++ "/v1/traces");
      Call_OTLPLogExporter (e ++ "/v1/logs") ] /\
  exists tp r sl sp te lp r' lrp le,
    last (tracer_providers (world st')) = Some tp /\
    heap (world st') !! tp = Some (Obj_TracerProvider r sl [sp]) /\
    heap (world st') !! sp = Some (Obj_BatchSpanProcessor te) /\
    heap (world st') !! te = Some (Obj_OTLPSpanExporter (e ++ "/v1/traces")) /\
    last (logger_providers (world st')) = Some lp /\
    heap (world st') !! lp = Some (Obj_LoggerProvider r' [lrp]) /\
    heap (world st') !! lrp = Some (Obj_BatchLogRecordProcessor le) /\
    heap (world st') !! le = Some (Obj_OTLPLogExporter (e ++ "/v1/logs")).
Proof.
  intros Hi He Ht Hr.
  rewrite (init_configured_returned s st st' e Hi He Ht Hr).
  destruct st as [i w]. cbn [world].
  split.
  - rewrite new_calls_configured. reflexivity.
  - set (n := length (heap w)).
    exists (n + 3), n, (n + 2), (n + 4), (n + 1), (n + 6), n, (n + 7), (n + 5).
    subst n. repeat split; try heap_lookup;
      cbn [configured_world tracer_providers logger_providers];
      apply last_snoc.
Qed.

(** C5: on the configured path the tracer provider that [init] builds and
    hands to the library carries a span-limits object built from the six
    constants 100000, 100000, 10000, 1000, 10000, 1000, whatever the
    service name, the endpoint and the world are, and that is the only
    span-limits call made. *)
Theorem span_limits_constants (s : string) (st st' : State) (e : string) :
  _initialized st = false ->
  environ (world st) !! "OTEL_EXPORTER_OTLP_ENDPOINT" = Some e ->
  e <> "" ->
  init s st = (Returned tt, st') ->
  In (Call_SpanLimits 100000 100000 10000 1000 10000 1000)
     (new_calls st st') /\
  (forall a b c d e' f,
      In (Call_SpanLimits a b c d e' f) (new_calls st st') ->
      Call_SpanLimits a b c d e' f
      = Call_SpanLimits 100000 100000 10000 1000 10000 1000) /\
  exists tp r sl sps,
    last (tracer_providers (world st')) = Some tp /\
    heap (world st') !! tp = Some (Obj_TracerProvider r sl sps) /\
    heap (world st') !! sl
    = Some (Obj_SpanLimits 100000 100000 10000 1000 10000 1000).
Proof.
  intros Hi He Ht Hr.
  rewrite (init_configured_returned s st st' e Hi He Ht Hr).
  destruct st as [i w]. cbn [world].
  rewrite new_calls_configured. unfold configured_calls.
  split; [|split].
  - simpl. tauto.
  - intros a b c d e' f H. simpl in H.
    repeat (destruct H as [H|H]; [congruence|]). destruct H.
  - set (n := length (heap w)).
    exists (n + 3), n, (n + 2), [n + 4]. subst n.
    repeat split; try heap_lookup.
    cbn [configured_world tracer_providers]. apply last_snoc.
Qed.

(** C6: [get_tracer name] is the library's [trace.get_tracer name]: same
    result, same effect on the world; it leaves the flag alone and does
    not look at it; with the argument omitted the name is "pondside". *)
Theorem get_tracer_delegates (name : string) (st : State) :
  get_tracer (Some name) st = trace_get_tracer name st /\
  get_tracer None st = trace_get_tracer "pondside" st /\
  fst (get_tracer (Some name) st)
  = (if raises (world st) (Call_get_tracer name)
     then Raised (Call_get_tracer name)
     else Returned (lookup_tracer (log_call (Call_get_tracer name) (world st)) name)) /\
  _initialized (snd (get_tracer (Some name) st)) = _initialized st /\
  forall b : bool,
    fst (get_tracer (Some name) (mkState b (world st)))
    = fst (get_tracer (Some name) st) /\
    world (snd (get_tracer (Some name) (mkState b (world st))))
    = world (snd (get_tracer (Some name) st)).
Proof.
  split; [reflexivity|]. split; [reflexivity|].
  split; [|split].
  - unfold get_tracer, trace_get_tracer, ext. cbn [default].
    destruct (raises _ _); reflexivity.
  - apply get_tracer_initialized.
  - intros b. unfold get_tracer, trace_get_tracer, ext.
    cbn [default world]. destruct (raises _ _); split; reflexivity.
Qed.

(** C7, as amended: on the configured path [init] calls [Resource.create]
    once, with the single attribute SERVICE_NAME = [s].  The resource it
    gets carries [s] as its service name when [s] is not empty, and the
    library's fallback name when it is.  That one object is the resource
    of both the tracer provider and the logger provider that [init] builds
    and hands to the library; each of them is the registered provider
    when no provider of its kind was registered before, and otherwise the
    registry keeps the earlier one. *)
Theorem single_resource_shared (s : string) (st st' : State) (e : string) :
  _initialized st = false ->
  environ (world st) !! "OTEL_EXPORTER_OTLP_ENDPOINT" = Some e ->
  e <> "" ->
  init s st = (Returned tt, st') ->
  List.filter is_Resource_create (new_calls st st')
  = [ Call_Resource_create [(SERVICE_NAME, s)] ] /\
  exists r attributes tp sl sps lp lps,
    heap (world st') !! r = Some (Obj_Resource attributes) /\
    attributes !! SERVICE_NAME
    = Some (if truthy (Some s) then s else unknown_service_name) /\
    last (tracer_providers (world st')) = Some tp /\
    heap (world st') !! tp = Some (Obj_TracerProvider r sl sps) /\
    last (logger_providers (world st')) = Some lp /\
    heap (world st') !! lp = Some (Obj_LoggerProvider r lps) /\
    registered_tracer_provider (world st')
    = Some (default tp (registered_tracer_provider (world st))) /\
    registered_logger_provider (world st')
    = Some (default lp (registered_logger_provider (world st))).
Proof.
  intros Hi He Ht Hr.
  rewrite (init_configured_returned s st st' e Hi He Ht Hr).
  destruct st as [i w]. cbn [world].
  split.
  - rewrite new_calls_configured. reflexivity.
  - set (n := length (heap w)).
    exists n, (resource_attributes (environ w) [(SERVICE_NAME, s)]),
      (n + 3), (n + 2), [n + 4], (n + 6), [n + 7]. subst n.
    split; [heap_lookup|].
    split; [apply resource_attributes_service_name|].
    split; [cbn [configured_world tracer_providers]; apply last_snoc|].
    split; [heap_lookup|].
    split; [cbn [configured_world logger_providers]; apply last_snoc|].
    split; [heap_lookup|].
    unfold registered_tracer_provider, registered_logger_provider.
    cbn [configured_world tracer_providers logger_providers].
    split; apply head_snoc_default.
Qed.


(** C9: an endpoint variable set to the empty string disables telemetry
    just as an absent one does: with the variable empty, and with it
    removed, [init] returns with the flag set and its world untouched. *)
Theorem empty_endpoint_disables (s : string) (st : State) :
  environ (world st) !! "OTEL_EXPORTER_OTLP_ENDPOINT" = Some "" ->
  init s st = (Returned tt, mkState true (world st)) /\
  init s (without_endpoint st)
  = (Returned tt, mkState true (world (without_endpoint st))).
Proof.
  intros He. split.
  - destruct (_initialized st) eqn:Hi.
    + rewrite init_already_initialized by exact Hi.
      destruct st as [i w]. simpl in Hi. subst i. reflexivity.
    + apply init_disabled; [exact Hi|]. rewrite He. reflexivity.
  - apply init_endpoint_absent_state.
    unfold without_endpoint, with_environ. cbn [world environ].
    apply lookup_delete_eq.
Qed.

(** C10: if [init] raises, whichever of the configuration calls it was,
    the flag is still false afterwards, so the next [init] is not a
    no-op: the endpoint is still there, and if that call returns it has
    gone through the whole configuration again, from the resource to the
    handler. *)
Theorem flag_set_last (s : string) (st : State) (c : ExtCall) (st' : State) :
  init s st = (Raised c, st') ->
  _initialized st = false /\
  _initialized st' = false /\
  exists e,
    environ (world st') !! "OTEL_EXPORTER_OTLP_ENDPOINT" = Some e /\
    e <> "" /\
    forall s2 st'',
      init s2 st' = (Returned tt, st'') ->
      st'' = mkState true (configured_world s2 e (world st')) /\
      new_calls st' st'' = configured_calls s2 e (length (heap (world st'))) /\
      st'' <> st'.
Proof.
  intros Hr. apply init_raised in Hr.
  destruct Hr as (Hi & Ht & Hi' & Henv & _ & _).
  split; [exact Hi|]. split; [exact Hi'|].
  destruct (environ (world st) !! "OTEL_EXPORTER_OTLP_ENDPOINT")
    as [e|] eqn:He; [|discriminate Ht].
  exists e. rewrite Henv.
  apply truthy_Some_nonempty in Ht.
  split; [exact He|]. split; [exact Ht|].
  intros s2 st'' Hr2.
  assert (He' : environ (world st') !! "OTEL_EXPORTER_OTLP_ENDPOINT" = Some e)
    by (rewrite Henv; exact He).
  pose proof (init_configured_returned s2 st' st'' e Hi' He' Ht Hr2) as ->.
  split; [reflexivity|]. split.
  - destruct st' as [i' w']. apply new_calls_configured.
  - intros Heq. rewrite <- Heq in Hi'. discriminate Hi'.
Qed.

(** * Further properties of [init] *)

(** ** The world at the point where [init] raised *)

Ltac world_simpl_goal :=
  unfold log_call, with_heap;
  cbn [_initialized world environ heap tracer_providers logger_providers
       root_handlers calls];
  rewrite ?insert_app_r; cbn [insert list_insert];
  rewrite <- ?app_assoc; cbn [app].

Lemma init_raised_world s st c st' e :
  environ (world st) !! "OTEL_EXPORTER_OTLP_ENDPOINT" = Some e ->
  init s st = (Raised c, st') ->
  let n := length (heap (world st)) in
  environ (world st') = environ (world st) /\
  heap (world st) `prefix_of` heap (world st') /\
  tracer_providers (world st')
  = (tracer_providers (world st)
     ++ (if after_tracer_registration c then [n + 3] else []))%list /\
  logger_providers (world st')
  = (logger_providers (world st)
     ++ (if after_logger_registration c then [n + 6] else []))%list /\
  exists pre rest,
    calls (world st') = (calls (world st) ++ pre)%list /\
    configured_calls s e n = (pre ++ rest)%list /\
    last pre = Some c.
Proof.
  intros He Hr.
  destruct (init_raised s st c st' Hr) as (Hi & Ht & _).
  destruct st as [i [env h tps lps rhs cs]]. simpl in Hi, He. subst i.
  unfold init, bind at 1 2, get_initialized, os_environ_get in Hr.
  cbn [_initialized world environ] in Hr, Ht.
  rewrite He in Hr, Ht. rewrite Ht in Hr. cbn [negb fstr] in Hr.
  cbn [world environ heap tracer_providers logger_providers calls].
  do 14 (step_raised Hr R;
         [ clear R; world_simpl_goal;
           cbn [after_tracer_registration after_logger_registration];
           rewrite ?app_nil_r;
           split; [reflexivity|];
           split; [first [ reflexivity | apply prefix_app_r; reflexivity ]|];
           split; [reflexivity|]; split; [reflexivity|];
           eexists _, _; split; [reflexivity|]; split; reflexivity
         | ]).
  discriminate Hr.
Qed.

(** The world just before the call that raised, and the library's answer
    in that world. *)
Lemma init_raised_at s st c st' :
  init s st = (Raised c, st') ->
  exists w, raises w c = true /\ world st' = log_call c w /\
            environ w = environ (world st) /\
            calls (world st) `prefix_of` calls w.
Proof.
  intros Hr.
  destruct (init_raised s st c st' Hr) as (Hi & Ht & _).
  destruct st as [i [env h tps lps rhs cs]]. simpl in Hi. subst i.
  unfold init, bind at 1 2, get_initialized, os_environ_get in Hr.
  cbn [_initialized world environ] in Hr, Ht.
  rewrite Ht in Hr. cbn [negb] in Hr.
  cbn [world environ calls].
  do 14 (step_raised Hr R;
         [ eexists; split; [exact R|]; cbn [world environ calls];
           split; [reflexivity|]; split; [reflexivity|];
           first [ reflexivity | apply prefix_app_r; reflexivity ]
         | ]).
  discriminate Hr.
Qed.

Lemma init_returned_cases s st st' :
  init s st = (Returned tt, st') ->
  (_initialized st = true /\ st' = st) \/
  (_initialized st = false /\
   truthy (environ (world st) !! "OTEL_EXPORTER_OTLP_ENDPOINT") = false /\
   st' = mkState true (world st)) \/
  (_initialized st = false /\
   exists e, environ (world st) !! "OTEL_EXPORTER_OTLP_ENDPOINT" = Some e /\
             e <> "" /\
             st' = mkState true (configured_world s e (world st))).
Proof.
  intros Hr. destruct (_initialized st) eqn:Hi.
  { left. rewrite init_already_initialized in Hr by exact Hi.
    injection Hr as <-. split; reflexivity. }
  right.
  destruct (truthy (environ (world st) !! "OTEL_EXPORTER_OTLP_ENDPOINT")) eqn:Ht.
  - right. split; [reflexivity|].
    destruct (environ (world st) !! "OTEL_EXPORTER_OTLP_ENDPOINT")
      as [e|] eqn:He; [|discriminate Ht].
    apply truthy_Some_nonempty in Ht. exists e.
    split; [reflexivity|]. split; [exact Ht|].
    exact (init_configured_returned s st st' e Hi He Ht Hr).
  - left. rewrite init_disabled in Hr by assumption.
    injection Hr as <-. repeat split.
Qed.

Lemma raised_endpoint s st c st' :
  init s st = (Raised c, st') ->
  exists e, environ (world st) !! "OTEL_EXPORTER_OTLP_ENDPOINT" = Some e /\
            e <> "".
Proof.
  intros Hr. destruct (init_raised s st c st' Hr) as (_ & Ht & _).
  destruct (environ (world st) !! "OTEL_EXPORTER_OTLP_ENDPOINT")
    as [e|]; [|discriminate Ht].
  exists e. split; [reflexivity|]. apply truthy_Some_nonempty. exact Ht.
Qed.

Lemma get_tracer_world name st :
  world (snd (get_tracer name st))
  = log_call (Call_get_tracer (default "pondside" name)) (world st).
Proof.
  unfold get_tracer, trace_get_tracer, ext.
  destruct (raises _ _); reflexivity.
Qed.

Lemma world_extends_refl w : world_extends w w.
Proof.
  unfold world_extends. repeat split; reflexivity.
Qed.

Lemma world_extends_configured s e w :
  world_extends w (configured_world s e w).
Proof.
  unfold world_extends, configured_world.
  cbn [heap tracer_providers logger_providers root_handlers calls].
  repeat split; apply prefix_app_r; reflexivity.
Qed.

(** ** What [init] does on every path *)

(** X1: [init] never writes to the environment, whether it returns or
    raises. *)
Theorem init_keeps_environ (s : string) (st : State) :
  environ (world (snd (init s st))) = environ (world st).
Proof.
  destruct (init s st) as [[[]|c] st'] eqn:Hr; cbn [snd].
  - destruct (init_returned_cases s st st' Hr)
      as [(_ & ->) | [(_ & _ & ->) | (_ & e & _ & _ & ->)]]; reflexivity.
  - destruct (init_raised s st c st' Hr) as (_ & _ & _ & He & _). exact He.
Qed.

(** X2: whatever the outcome, [init] only adds to the world: the objects
    that existed keep their place and their contents, no provider is
    unregistered, no handler is removed from the root logger. *)
Theorem init_extends_world (s : string) (st : State) :
  world_extends (world st) (world (snd (init s st))).
Proof.
  destruct (init s st) as [[[]|c] st'] eqn:Hr; cbn [snd].
  - destruct (init_returned_cases s st st' Hr)
      as [(_ & ->) | [(_ & _ & ->) | (_ & e & _ & _ & ->)]]; cbn [world].
    + apply world_extends_refl.
    + apply world_extends_refl.
    + apply world_extends_configured.
  - destruct (raised_endpoint s st c st' Hr) as (e & He & _).
    destruct (init_raised s st c st' Hr) as (_ & _ & _ & _ & Hh & _).
    destruct (init_raised_world s st c st' e He Hr)
      as (_ & Hheap & Htp & Hlp & pre & rest & Hc & _).
    unfold world_extends. rewrite Htp, Hlp, Hh, Hc.
    split; [exact Hheap|].
    repeat split; first [ reflexivity | apply prefix_app_r; reflexivity ].
Qed.

(** X3: [init] has no exception of its own.  When it raises, the call it
    reports is one of its fourteen configuration calls, and the library
    raised on that call in the world [init] had brought about by then:
    the state left behind is that world with the call recorded. *)
Theorem init_raises_only_from_library
    (s : string) (st : State) (c : ExtCall) (st' : State) :
  init s st = (Raised c, st') ->
  (exists w,
      raises w c = true /\
      world st' = log_call c w /\
      environ w = environ (world st) /\
      calls (world st) `prefix_of` calls w) /\
  exists e,
    environ (world st) !! "OTEL_EXPORTER_OTLP_ENDPOINT" = Some e /\
    In c (configured_calls s e (length (heap (world st)))).
Proof.
  intros Hr.
  split; [exact (init_raised_at s st c st' Hr)|].
  destruct (raised_endpoint s st c st' Hr) as (e & He & _).
  exists e. split; [exact He|].
  destruct (init_raised_world s st c st' e He Hr)
    as (_ & _ & _ & _ & pre & rest & _ & Hcfg & Hlast).
  cbn zeta in Hcfg. rewrite Hcfg.
  apply last_Some in Hlast. destruct Hlast as (pre' & ->).
  apply in_or_app. left. apply in_or_app. right. left. reflexivity.
Qed.

(** X4: with a library that never raises, [init] returns in every state
    and leaves the flag set. *)
Theorem init_returns_when_library_quiet (s : string) (st : State) :
  library_never_raises ->
  fst (init s st) = Returned tt /\
  _initialized (snd (init s st)) = true.
Proof.
  intros Hq. destruct (init s st) as [[[]|c] st'] eqn:Hr; cbn [fst snd].
  - split; [reflexivity|]. exact (init_returned_initialized s st st' Hr).
  - destruct (init_raised s st c st' Hr) as (_ & _ & _ & _ & _ & w & Hw).
    rewrite Hq in Hw. discriminate Hw.
Qed.

(** X5: when [init] raises, the library calls it has made are an initial
    segment of the configuration sequence, in the order of the source, and
    the last of them is the call that raised. *)
Theorem raised_calls_initial_segment
    (s : string) (st : State) (c : ExtCall) (st' : State) (e : string) :
  environ (world st) !! "OTEL_EXPORTER_OTLP_ENDPOINT" = Some e ->
  init s st = (Raised c, st') ->
  new_calls st st' `prefix_of` configured_calls s e (length (heap (world st))) /\
  last (new_calls st st') = Some c.
Proof.
  intros He Hr.
  destruct (init_raised_world s st c st' e He Hr)
    as (_ & _ & _ & _ & pre & rest & Hc & Hcfg & Hlast).
  cbn zeta in Hcfg. unfold new_calls. rewrite Hc, drop_app_length.
  split; [|exact Hlast]. exists rest. exact Hcfg.
Qed.

(** X6: what a raising [init] leaves behind.  Its tracer provider has
    been handed to [set_tracer_provider] exactly when the raise came after
    line 72, its logger provider to [set_logger_provider] exactly when the
    raise came after line 79.  A registry that already held a provider
    still holds it; an empty one holds this attempt's provider in exactly
    those cases.  The root logger has no new handler and the flag is still
    false. *)
Theorem raised_partial_registration
    (s : string) (st : State) (c : ExtCall) (st' : State) :
  init s st = (Raised c, st') ->
  tracer_providers (world st')
  = (tracer_providers (world st)
     ++ (if after_tracer_registration c
         then [length (heap (world st)) + 3] else []))%list /\
  logger_providers (world st')
  = (logger_providers (world st)
     ++ (if after_logger_registration c
         then [length (heap (world st)) + 6] else []))%list /\
  registered_tracer_provider (world st')
  = match registered_tracer_provider (world st) with
    | Some p => Some p
    | None => if after_tracer_registration c
              then Some (length (heap (world st)) + 3) else None
    end /\
  registered_logger_provider (world st')
  = match registered_logger_provider (world st) with
    | Some p => Some p
    | None => if after_logger_registration c
              then Some (length (heap (world st)) + 6) else None
    end /\
  root_handlers (world st') = root_handlers (world st) /\
  _initialized st' = false.
Proof.
  intros Hr.
  destruct (raised_endpoint s st c st' Hr) as (e & He & _).
  destruct (init_raised s st c st' Hr) as (_ & _ & Hi & _ & Hh & _).
  destruct (init_raised_world s st c st' e He Hr) as (_ & _ & Htp & Hlp & _).
  cbn zeta in Htp, Hlp.
  unfold registered_tracer_provider, registered_logger_provider.
  split; [exact Htp|]. split; [exact Hlp|].
  split; [rewrite Htp; apply head_app_if|].
  split; [rewrite Hlp; apply head_app_if|].
  split; assumption.
Qed.

(** X7: a retry after a raise.  The second [init] configures from scratch
    and hands providers of its own to the library, after whatever the
    failed attempt had handed in; but the registries keep the first
    provider they were given.  So the registered tracer provider is an
    earlier one if there was one, else the failed attempt's when the raise
    came after line 72, else the retry's; likewise for the logger provider
    and line 79.  The one handler the retry attaches is wired to the
    retry's own logger provider. *)
Theorem retry_after_raise
    (s : string) (st : State) (c : ExtCall) (st1 : State)
    (s2 : string) (st2 : State) :
  init s st = (Raised c, st1) ->
  init s2 st1 = (Returned tt, st2) ->
  tracer_providers (world st2)
  = (tracer_providers (world st)
     ++ (if after_tracer_registration c
         then [length (heap (world st)) + 3] else [])
     ++ [length (heap (world st1)) + 3])%list /\
  logger_providers (world st2)
  = (logger_providers (world st)
     ++ (if after_logger_registration c
         then [length (heap (world st)) + 6] else [])
     ++ [length (heap (world st1)) + 6])%list /\
  registered_tracer_provider (world st2)
  = Some (default (if after_tracer_registration c
                   then length (heap (world st)) + 3
                   else length (heap (world st1)) + 3)
                  (registered_tracer_provider (world st))) /\
  registered_logger_provider (world st2)
  = Some (default (if after_logger_registration c
                   then length (heap (world st)) + 6
                   else length (heap (world st1)) + 6)
                  (registered_logger_provider (world st))) /\
  root_handlers (world st2)
  = (root_handlers (world st) ++ [length (heap (world st1)) + 8])%list /\
  heap (world st2) !! (length (heap (world st1)) + 8)
  = Some (Obj_LoggingHandler DEBUG (length (heap (world st1)) + 6)) /\
  _initialized st2 = true.
Proof.
  intros Hr1 Hr2.
  destruct (raised_endpoint s st c st1 Hr1) as (e & He & Hne).
  destruct (init_raised s st c st1 Hr1) as (_ & _ & Hi & Henv & Hh & _).
  destruct (init_raised_world s st c st1 e He Hr1) as (_ & _ & Htp & Hlp & _).
  cbn zeta in Htp, Hlp.
  assert (He1 : environ (world st1) !! "OTEL_EXPORTER_OTLP_ENDPOINT" = Some e)
    by (rewrite Henv; exact He).
  rewrite (init_configured_returned s2 st1 st2 e Hi He1 Hne Hr2).
  unfold registered_tracer_provider, registered_logger_provider.
  cbn [world _initialized configured_world tracer_providers logger_providers
       root_handlers].
  rewrite Htp, Hlp, Hh, <- !app_assoc.
  split; [reflexivity|]. split; [reflexivity|].
  split.
  { destruct (tracer_providers (world st)), (after_tracer_registration c);
      reflexivity. }
  split.
  { destruct (logger_providers (world st)), (after_logger_registration c);
      reflexivity. }
  split; [reflexivity|]. split; [|reflexivity].
  heap_lookup.
Qed.

(** ** The root logger over the life of the process *)

Lemma run_handler_invariant (handlers0 : list loc) (ops : list Op) :
  forall st,
    forallb is_module_call ops = true ->
    (exists l, root_handlers (world st) = (handlers0 ++ l)%list /\
               length l <= 1 /\
               (_initialized st = false -> l = [])) ->
    exists l, root_handlers (world (run ops st)) = (handlers0 ++ l)%list /\
              length l <= 1 /\
              (_initialized (run ops st) = false -> l = []).
Proof.
  induction ops as [|op ops IH]; intros st Hops Hinv; [exact Hinv|].
  cbn [forallb] in Hops. apply andb_true_iff in Hops.
  destruct Hops as [Hop Hops]. cbn [run]. apply IH; [exact Hops|].
  destruct Hinv as (l & Hl & Hlen & Hflag).
  destruct op as [s|name|f]; [| |discriminate Hop]; cbn [exec].
  - destruct (init s st) as [[[]|c] st'] eqn:Hr; cbn [snd].
    + destruct (init_returned_cases s st st' Hr)
        as [(_ & ->) | [(_ & _ & ->) | (Hi & e & _ & _ & ->)]].
      * exists l. repeat split; assumption.
      * exists l. cbn [world _initialized].
        repeat split; [exact Hl | exact Hlen | discriminate].
      * rewrite (Hflag Hi), app_nil_r in Hl.
        exists [length (heap (world st)) + 8].
        cbn [world _initialized configured_world root_handlers length].
        rewrite Hl. repeat split; [lia | discriminate].
    + destruct (init_raised s st c st' Hr) as (Hi & _ & _ & _ & Hh & _).
      exists l. rewrite Hh. repeat split; [exact Hl | exact Hlen |].
      intros _. exact (Hflag Hi).
  - exists l. rewrite get_tracer_world, get_tracer_initialized.
    cbn [log_call root_handlers]. repeat split; assumption.
Qed.

(** X8: over any sequence of calls of [init] and [get_tracer] from the
    freshly loaded module, with failures and retries, the root logger gets
    at most one handler from [init], and only in a state where the flag is
    set. *)
Theorem at_most_one_handler (w0 : World) (ops : list Op) :
  forallb is_module_call ops = true ->
  exists l,
    root_handlers (world (run ops (module_loaded w0)))
    = (root_handlers w0 ++ l)%list /\
    length l <= 1 /\
    (_initialized (run ops (module_loaded w0)) = false -> l = []).
Proof.
  intros Hops. apply run_handler_invariant; [exact Hops|].
  exists []. cbn [module_loaded world]. rewrite app_nil_r.
  repeat split. cbn [length]. lia.
Qed.

(** ** The configuring run in full *)

(** X9: a configuring [init] that returns has made exactly the fourteen
    library calls of lines 55-84, in that order and with arguments built
    from the service name, the endpoint and the objects just created; it
    has created nine objects, handed one tracer provider and one logger
    provider to the library, and attached one handler.  Each registry
    holds the provider it held before, or the new one if it held none. *)
Theorem init_configured_exact (s : string) (st st' : State) (e : string) :
  _initialized st = false ->
  environ (world st) !! "OTEL_EXPORTER_OTLP_ENDPOINT" = Some e ->
  e <> "" ->
  init s st = (Returned tt, st') ->
  new_calls st st' = configured_calls s e (length (heap (world st))) /\
  heap (world st')
  = (heap (world st)
     ++ configured_objects (environ (world st)) s e
          (length (heap (world st))))%list /\
  tracer_providers (world st')
  = (tracer_providers (world st) ++ [length (heap (world st)) + 3])%list /\
  logger_providers (world st')
  = (logger_providers (world st) ++ [length (heap (world st)) + 6])%list /\
  registered_tracer_provider (world st')
  = Some (default (length (heap (world st)) + 3)
                  (registered_tracer_provider (world st))) /\
  registered_logger_provider (world st')
  = Some (default (length (heap (world st)) + 6)
                  (registered_logger_provider (world st))) /\
  root_handlers (world st')
  = (root_handlers (world st) ++ [length (heap (world st)) + 8])%list.
Proof.
  intros Hi He Hne Hr.
  rewrite (init_configured_returned s st st' e Hi He Hne Hr).
  destruct st as [i w]. cbn [world].
  split; [apply new_calls_configured|].
  unfold registered_tracer_provider, registered_logger_provider.
  cbn [configured_world heap tracer_providers logger_providers root_handlers].
  split; [reflexivity|]. split; [reflexivity|]. split; [reflexivity|].
  split; [apply head_snoc_default|]. split; [apply head_snoc_default|].
  reflexivity.
Qed.

(** X10: [init] calls into the library exactly when the flag is clear and
    the endpoint variable holds a non-empty string. *)
Theorem init_calls_library_iff (s : string) (st : State) :
  new_calls st (snd (init s st)) = [] <->
  _initialized st = true \/
  truthy (environ (world st) !! "OTEL_EXPORTER_OTLP_ENDPOINT") = false.
Proof.
  unfold new_calls.
  destruct (init s st) as [[[]|c] st'] eqn:Hr; cbn [snd].
  - destruct (init_returned_cases s st st' Hr)
      as [(Hi & ->) | [(Hi & Ht & ->) | (Hi & e & He & Hne & ->)]].
    + rewrite drop_all. split; [intros _; left; exact Hi | reflexivity].
    + cbn [world]. rewrite drop_all.
      split; [intros _; right; exact Ht | reflexivity].
    + cbn [world configured_world calls]. rewrite drop_app_length.
      split; [discriminate|].
      intros [H|H]; [congruence|].
      rewrite He in H. apply truthy_Some_nonempty in Hne. congruence.
  - destruct (raised_endpoint s st c st' Hr) as (e & He & Hne).
    destruct (init_raised s st c st' Hr) as (Hi & Ht & _).
    destruct (init_raised_world s st c st' e He Hr)
      as (_ & _ & _ & _ & pre & rest & Hc & _ & Hlast).
    rewrite Hc, drop_app_length.
    split.
    + intros ->. discriminate Hlast.
    + intros [H|H]; congruence.
Qed.

End Properties.


(** * The theorems at concrete inputs *)

Example demo_init_returns :
  demo_init "api" demo_state
  = (Returned tt,
     mkState true (configured_world (lib := quiet_library) "api"
                     "http://collector:4318" (world demo_state))).
Proof. vm_compute. reflexivity. Qed.

Example demo_heap :
  heap (world demo_configured)
  = [ Obj_Resource {[ "service.name" := "api";
                      "telemetry.sdk.language" := "python";
                      "telemetry.sdk.name" := "opentelemetry" ]};
      Obj_OTLPSpanExporter "http://collector:4318/v1/traces";
      Obj_SpanLimits 100000 100000 10000 1000 10000 1000;
      Obj_TracerProvider 0 2 [4];
      Obj_BatchSpanProcessor 1;
      Obj_OTLPLogExporter "http://collector:4318/v1/logs";
      Obj_LoggerProvider 0 [7];
      Obj_BatchLogRecordProcessor 5;
      Obj_LoggingHandler 10 6 ].
Proof. vm_compute. reflexivity. Qed.

Example flaky_init_raises :
  fst (flaky_init "api" demo_state) = Raised (Call_addHandler 8) /\
  _initialized demo_raised = false /\
  tracer_providers (world demo_raised) = [3] /\
  root_handlers (world demo_raised) = [].
Proof. vm_compute. repeat split. Qed.

Example flaky_init_again :
  fst (flaky_init "api" demo_raised) = Returned tt /\
  tracer_providers (world (snd (flaky_init "api" demo_raised))) = [3; 12] /\
  root_handlers (world (snd (flaky_init "api" demo_raised))) = [17].
Proof. vm_compute. repeat split. Qed.

(** [get_tracer()] after [init], as in test_telemetry.py. *)
Example get_tracer_default_name :
  fst (get_tracer (lib := quiet_library) None demo_configured)
  = Returned "pondside" /\
  new_calls demo_configured
            (snd (get_tracer (lib := quiet_library) None demo_configured))
  = [ Call_get_tracer "pondside" ].
Proof. vm_compute. split; reflexivity. Qed.

Lemma demo_state_fresh : _initialized demo_state = false.
Proof. reflexivity. Defined.

Lemma demo_state_endpoint :
  environ (world demo_state) !! "OTEL_EXPORTER_OTLP_ENDPOINT"
  = Some "http://collector:4318".
Proof. vm_compute. reflexivity. Defined.

Lemma demo_endpoint_nonempty : "http://collector:4318" <> "".
Proof. discriminate. Defined.

Lemma demo_init_configured :
  demo_init "api" demo_state = (Returned tt, demo_configured).
Proof. vm_compute. reflexivity. Defined.

Lemma init_idempotent_witness :
  demo_init "api" demo_state = (Returned tt, demo_configured) /\
  demo_init "batch" (demo_run demo_ops demo_configured)
  = (Returned tt, demo_run demo_ops demo_configured).
Proof.
  split; [exact demo_init_configured|].
  exact (init_idempotent (lib := quiet_library) "api" demo_state
           demo_configured demo_init_configured demo_ops "batch").
Defined.

Lemma init_endpoint_absent_witness :
  environ empty_world !! "OTEL_EXPORTER_OTLP_ENDPOINT" = None /\
  demo_init "api" (module_loaded empty_world)
  = (Returned tt, mkState true empty_world) /\
  new_calls (module_loaded empty_world)
            (snd (demo_init "api" (module_loaded empty_world))) = [].
Proof.
  assert (H : environ (world (module_loaded empty_world))
              !! "OTEL_EXPORTER_OTLP_ENDPOINT" = None) by reflexivity.
  split; [exact H|].
  exact (init_endpoint_absent (lib := quiet_library) "api"
           (module_loaded empty_world) H).
Defined.

Lemma initialized_never_reset_witness :
  _initialized (demo_run [Op_init "api"] (module_loaded empty_world)) = true /\
  _initialized
    (demo_run demo_ops (demo_run [Op_init "api"] (module_loaded empty_world)))
  = true.
Proof.
  assert (H : _initialized (demo_run [Op_init "api"] (module_loaded empty_world))
              = true) by reflexivity.
  split; [exact H|].
  exact (initialized_never_reset (lib := quiet_library) empty_world
           [Op_init "api"] demo_ops H).
Defined.

Lemma exporter_endpoints_witness :
  List.filter is_exporter_call (new_calls demo_state demo_configured)
  = [ Call_OTLPSpanExporter "http://collector:4318/v1/traces";
      Call_OTLPLogExporter "http://collector:4318/v1/logs" ].
Proof.
  exact (proj1 (exporter_endpoints (lib := quiet_library) "api" demo_state
                  demo_configured "http://collector:4318"
                  demo_state_fresh demo_state_endpoint
                  demo_endpoint_nonempty demo_init_configured)).
Defined.

Lemma span_limits_constants_witness :
  In (Call_SpanLimits 100000 100000 10000 1000 10000 1000)
     (new_calls demo_state demo_configured).
Proof.
  exact (proj1 (span_limits_constants (lib := quiet_library) "api" demo_state
                  demo_configured "http://collector:4318"
                  demo_state_fresh demo_state_endpoint
                  demo_endpoint_nonempty demo_init_configured)).
Defined.

Lemma single_resource_shared_witness :
  List.filter is_Resource_create (new_calls demo_state demo_configured)
  = [ Call_Resource_create [("service.name", "api")] ] /\
  exists r attributes tp sl sps lp lps,
    heap (world demo_configured) !! r = Some (Obj_Resource attributes) /\
    attributes !! "service.name" = Some "api" /\
    last (tracer_providers (world demo_configured)) = Some tp /\
    heap (world demo_configured) !! tp = Some (Obj_TracerProvider r sl sps) /\
    last (logger_providers (world demo_configured)) = Some lp /\
    heap (world demo_configured) !! lp = Some (Obj_LoggerProvider r lps) /\
    registered_tracer_provider (world demo_configured) = Some tp /\
    registered_logger_provider (world demo_configured) = Some lp.
Proof.
  exact (single_resource_shared (lib := quiet_library) "api" demo_state
           demo_configured "http://collector:4318"
           demo_state_fresh demo_state_endpoint
           demo_endpoint_nonempty demo_init_configured).
Defined.

(** With the empty string for a service name [init] still configures, but
    the resource of the registered tracer provider does not carry the
    empty string as its service name: the library has put its fallback
    name there. *)
Lemma single_resource_counterexample :
  fst (demo_init "" demo_state) = Returned tt /\
  ~ (exists r attributes tp sl sps,
        registered_tracer_provider (world demo_unnamed) = Some tp /\
        heap (world demo_unnamed) !! tp = Some (Obj_TracerProvider r sl sps) /\
        heap (world demo_unnamed) !! r = Some (Obj_Resource attributes) /\
        attributes !! "service.name" = Some "").
Proof.
  split; [vm_compute; reflexivity|].
  intros (r & attributes & tp & sl & sps & Htp & Hp & Hr & Ha).
  vm_compute in Htp. injection Htp as Htp. subst tp.
  vm_compute in Hp. injection Hp as Hp _ _. subst r.
  vm_compute in Hr. injection Hr as Hr. subst attributes.
  vm_compute in Ha. discriminate Ha.
Qed.



Lemma empty_endpoint_disables_witness :
  demo_init "api" (module_loaded (world_with_endpoint ""))
  = (Returned tt, mkState true (world_with_endpoint "")) /\
  demo_init "api" (without_endpoint (module_loaded (world_with_endpoint "")))
  = (Returned tt,
     mkState true (world (without_endpoint (module_loaded (world_with_endpoint ""))))).
Proof.
  apply (empty_endpoint_disables (lib := quiet_library) "api"
           (module_loaded (world_with_endpoint ""))).
  vm_compute. reflexivity.
Defined.

Lemma flaky_init_raised :
  flaky_init "api" demo_state = (Raised (Call_addHandler 8), demo_raised).
Proof. vm_compute. reflexivity. Defined.

Lemma flaky_init_second :
  flaky_init "api" demo_raised
  = (Returned tt, snd (flaky_init "api" demo_raised)).
Proof. vm_compute. reflexivity. Defined.

Lemma flag_set_last_witness :
  _initialized demo_raised = false /\
  new_calls demo_raised (snd (flaky_init "api" demo_raised))
  = configured_calls (lib := flaky_library) "api" "http://collector:4318" 9 /\
  snd (flaky_init "api" demo_raised) <> demo_raised.
Proof.
  destruct (flag_set_last (lib := flaky_library) "api" demo_state
              (Call_addHandler 8) demo_raised flaky_init_raised)
    as (_ & Hflag & e & He & Hne & Hnext).
  split; [exact Hflag|].
  destruct (Hnext "api" _ flaky_init_second) as (_ & Hcalls & Hneq).
  split; [|exact Hneq].
  assert (Hendpoint : e = "http://collector:4318").
  { assert (H : environ (world demo_raised) !! "OTEL_EXPORTER_OTLP_ENDPOINT"
                = Some "http://collector:4318") by (vm_compute; reflexivity).
    rewrite H in He. injection He as <-. reflexivity. }
  rewrite Hendpoint in Hcalls. exact Hcalls.
Defined.


(** * The further properties at concrete inputs *)

Lemma quiet_library_never_raises : library_never_raises (lib := quiet_library).
Proof. intros w c. reflexivity. Defined.

Example retry_ops_handlers :
  root_handlers (world (flaky_run retry_ops demo_state)) = [17] /\
  tracer_providers (world (flaky_run retry_ops demo_state)) = [3; 12].
Proof. vm_compute. split; reflexivity. Qed.

Lemma init_raises_only_from_library_witness :
  (exists w,
      raises (Library := flaky_library) w (Call_addHandler 8) = true /\
      world demo_raised = log_call (Call_addHandler 8) w /\
      environ w = environ (world demo_state) /\
      calls (world demo_state) `prefix_of` calls w) /\
  exists e,
    environ (world demo_state) !! "OTEL_EXPORTER_OTLP_ENDPOINT" = Some e /\
    In (Call_addHandler 8)
       (configured_calls (lib := flaky_library) "api" e
          (length (heap (world demo_state)))).
Proof.
  exact (init_raises_only_from_library (lib := flaky_library) "api"
           demo_state (Call_addHandler 8) demo_raised flaky_init_raised).
Defined.

Lemma init_returns_when_library_quiet_witness :
  fst (demo_init "api" demo_state) = Returned tt /\
  _initialized (snd (demo_init "api" demo_state)) = true.
Proof.
  exact (init_returns_when_library_quiet (lib := quiet_library) "api"
           demo_state quiet_library_never_raises).
Defined.

Lemma raised_calls_initial_segment_witness :
  new_calls demo_state demo_raised
  `prefix_of` configured_calls (lib := flaky_library) "api"
                "http://collector:4318" (length (heap (world demo_state))) /\
  last (new_calls demo_state demo_raised) = Some (Call_addHandler 8).
Proof.
  exact (raised_calls_initial_segment (lib := flaky_library) "api" demo_state
           (Call_addHandler 8) demo_raised "http://collector:4318"
           demo_state_endpoint flaky_init_raised).
Defined.

Lemma raised_partial_registration_witness :
  tracer_providers (world demo_raised) = [3] /\
  logger_providers (world demo_raised) = [6] /\
  registered_tracer_provider (world demo_raised) = Some 3 /\
  registered_logger_provider (world demo_raised) = Some 6 /\
  root_handlers (world demo_raised) = [] /\
  _initialized demo_raised = false.
Proof.
  exact (raised_partial_registration (lib := flaky_library) "api" demo_state
           (Call_addHandler 8) demo_raised flaky_init_raised).
Defined.

Lemma retry_after_raise_witness :
  tracer_providers (world (snd (flaky_init "api" demo_raised))) = [3; 12] /\
  logger_providers (world (snd (flaky_init "api" demo_raised))) = [6; 15] /\
  registered_tracer_provider (world (snd (flaky_init "api" demo_raised)))
  = Some 3 /\
  registered_logger_provider (world (snd (flaky_init "api" demo_raised)))
  = Some 6 /\
  root_handlers (world (snd (flaky_init "api" demo_raised))) = [17] /\
  heap (world (snd (flaky_init "api" demo_raised))) !! 17
  = Some (Obj_LoggingHandler 10 15) /\
  _initialized (snd (flaky_init "api" demo_raised)) = true.
Proof.
  exact (retry_after_raise (lib := flaky_library) "api" demo_state
           (Call_addHandler 8) demo_raised "api"
           (snd (flaky_init "api" demo_raised))
           flaky_init_raised flaky_init_second).
Defined.

Lemma at_most_one_handler_witness :
  exists l,
    root_handlers (world (flaky_run retry_ops demo_state))
    = (root_handlers (world demo_state) ++ l)%list /\
    length l <= 1 /\
    (_initialized (flaky_run retry_ops demo_state) = false -> l = []).
Proof.
  apply (at_most_one_handler (lib := flaky_library) (world demo_state)
           retry_ops).
  reflexivity.
Defined.

Lemma init_configured_exact_witness :
  new_calls demo_state demo_configured
  = configured_calls (lib := quiet_library) "api" "http://collector:4318"
      (length (heap (world demo_state))).
Proof.
  exact (proj1 (init_configured_exact (lib := quiet_library) "api" demo_state
                  demo_configured "http://collector:4318"
                  demo_state_fresh demo_state_endpoint
                  demo_endpoint_nonempty demo_init_configured)).
Defined.

Lemma init_calls_library_iff_witness :
  new_calls (module_loaded empty_world)
            (snd (demo_init "api" (module_loaded empty_world))) = [] /\
  (_initialized demo_configured = true \/
   truthy (environ (world demo_configured) !! "OTEL_EXPORTER_OTLP_ENDPOINT")
   = false).
Proof.
  split.
  - apply (proj2 (init_calls_library_iff (lib := quiet_library) "api"
                    (module_loaded empty_world))).
    right. reflexivity.
  - apply (proj1 (init_calls_library_iff (lib := quiet_library) "api"
                    demo_configured)).
    vm_compute. reflexivity.
Defined.
